(** * The fossil_io Conan recipe (conanfile.py)

    The recipe is a Python class, [FossilIoConan], whose body binds a few
    attributes and six methods, one of them ([source]) twice.  The
    methods call helpers that the recipe does not define: the Meson
    helpers of Conan, [self.run] and the [copy] function of
    [conan.tools.files].  Those helpers are the recipe's environment.

    A method body is embedded as a program in a small monad: it reads and
    assigns attributes of the recipe object [self] and calls helpers,
    whose answers (a value or an exception) come from the environment.
    Every helper is handed [self] and may read any attribute of it.
    The class body is embedded as the list of its bindings, folded into
    the class namespace in the order Python executes them.

    Attributes are typed as Conan documents them ([version], [url] and
    [package_folder] are strings) and paths are joined as [posixpath]
    joins them. *)

From Stdlib Require Import Ascii String ZArith.
From stdpp Require Import base gmap strings list.

Local Open Scope string_scope.
Local Open Scope list_scope.

(** ** Python values *)

(** The values that show up in the class body and as results of helper
    calls.  [VObject] is a reference to a helper object such as the one
    [Meson(self)] returns. *)
#[local] Set Warnings "-register-all".
Inductive pyval : Type :=
| VNone
| VBool (b : bool)
| VInt (z : Z)
| VStr (s : string)
| VTuple (items : list pyval)
| VList (items : list pyval)
| VDict (items : list (string * pyval))
| VObject (ref : positive).

(** A raised Python exception: its class and its message. *)
Record exn : Type := Exception { exn_class : string; exn_message : string }.

(** ** [os.path.join] (posixpath) *)

(** [path.endswith("/")] *)
Fixpoint endswith_sep (path : string) : bool :=
  match path with
  | EmptyString => false
  | String c EmptyString => bool_decide (c = "/"%char)
  | String _ rest => endswith_sep rest
  end.

(** One round of the loop of [posixpath.join]: an absolute component
    replaces what was joined so far, otherwise it is appended, with a
    separator unless the path is empty or already ends in one. *)
Definition join_step (path b : string) : string :=
  if String.prefix "/" b then b
  else if bool_decide (path = "") || endswith_sep path then path +:+ b
  else path +:+ "/" +:+ b.

Definition os_path_join (a : string) (p : list string) : string :=
  foldl join_step a p.

(** ** The recipe object *)

Module Folders.
(** [self.folders] *)
Record t : Type := mk { source : string; build : string }.
End Folders.

Module CppInfo.
(** [self.cpp_info] *)
Record t : Type := mk { libs : list string; includedirs : list string }.
End CppInfo.

Module Options.
(** [self.options]: the value chosen for every declared option. *)
Record t : Type := mk { shared : bool }.
End Options.

Module ConanFile.
(** The state of [self] as far as the recipe names it; [other] holds
    every attribute of the instance that the recipe never mentions. *)
Record t : Type := mk {
  version : string;
  url : string;
  package_folder : string;
  options : Options.t;
  folders : Folders.t;
  cpp_info : CppInfo.t;
  other : gmap string pyval
}.

Definition set_folders (f : Folders.t → Folders.t) (self : t) : t :=
  mk (version self) (url self) (package_folder self) (options self)
     (f (folders self)) (cpp_info self) (other self).

Definition set_cpp_info (f : CppInfo.t → CppInfo.t) (self : t) : t :=
  mk (version self) (url self) (package_folder self) (options self)
     (folders self) (f (cpp_info self)) (other self).

Definition set_options (f : Options.t → Options.t) (self : t) : t :=
  mk (version self) (url self) (package_folder self) (f (options self))
     (folders self) (cpp_info self) (other self).
End ConanFile.

(** ** Helper calls and programs *)

(** The calls a method makes into Conan.  Every helper is handed [self];
    the arguments listed here are the ones the recipe builds itself. *)
Inductive call : Type :=
| MesonToolchain_init                         (* MesonToolchain(self) *)
| MesonToolchain_generate (tc : pyval)        (* tc.generate() *)
| Meson_init                                  (* Meson(self) *)
| Meson_configure (meson : pyval)             (* meson.configure() *)
| Meson_build (meson : pyval)                 (* meson.build() *)
| Meson_install (meson : pyval)               (* meson.install() *)
| self_run (command : string)                 (* self.run(command) *)
| copy (pattern src dst : string).            (* copy(self, pattern, src=, dst=) *)

(** The assignments to attributes of [self] that the recipe makes. *)
Inductive assignment : Type :=
| folders_source (value : string)             (* self.folders.source = value *)
| folders_build (value : string)              (* self.folders.build = value *)
| cpp_info_libs (value : list string)         (* self.cpp_info.libs = value *)
| cpp_info_includedirs (value : list string). (* self.cpp_info.includedirs = value *)

Definition assign (a : assignment) (self : ConanFile.t) : ConanFile.t :=
  match a with
  | folders_source value =>
      ConanFile.set_folders (λ f, Folders.mk value (Folders.build f)) self
  | folders_build value =>
      ConanFile.set_folders (λ f, Folders.mk (Folders.source f) value) self
  | cpp_info_libs value =>
      ConanFile.set_cpp_info (λ c, CppInfo.mk value (CppInfo.includedirs c)) self
  | cpp_info_includedirs value =>
      ConanFile.set_cpp_info (λ c, CppInfo.mk (CppInfo.libs c) value) self
  end.

(** Method bodies are programs over six operations: [raise], reading
    [self], assigning to an attribute of [self], calling a helper,
    Python's [try]/[except], and starting a thread.  A [try] statement
    runs [body]; an exception raised inside it is handed to [handler];
    [k] is the rest of the block.  [Spawn body k] starts [body] in a
    thread of its own and goes on with [k]. *)
Inductive prog (A : Type) : Type :=
| Ret (a : A)
| Raise (e : exn)
| Get (k : ConanFile.t → prog A)
| Put (a : assignment) (k : prog A)
| Call (c : call) (k : pyval → prog A)
| Try (body : prog unit) (handler : exn → prog unit) (k : prog A)
| Spawn (body : prog unit) (k : prog A).
Arguments Ret {A} a.
Arguments Raise {A} e.
Arguments Get {A} k.
Arguments Put {A} a k.
Arguments Call {A} c k.
Arguments Try {A} body handler k.
Arguments Spawn {A} body k.

Fixpoint prog_bind {A B} (f : A → prog B) (p : prog A) : prog B :=
  match p with
  | Ret a => f a
  | Raise e => Raise e
  | Get k => Get (λ self, prog_bind f (k self))
  | Put a k => Put a (prog_bind f k)
  | Call c k => Call c (λ r, prog_bind f (k r))
  | Try body handler k => Try body handler (prog_bind f k)
  | Spawn body k => Spawn body (prog_bind f k)
  end.

#[export] Instance prog_ret : MRet prog := λ A a, Ret a.
#[export] Instance prog_mbind : MBind prog := λ A B f p, prog_bind f p.

(** Reading an attribute of [self]. *)
Definition getattr {A} (proj : ConanFile.t → A) : prog A :=
  Get (λ self, Ret (proj self)).

(** Assigning to an attribute of [self]. *)
Definition setattr (a : assignment) : prog unit := Put a (Ret tt).

(** Calling a helper. *)
Definition invoke (c : call) : prog pyval := Call c Ret.

(** ** The class body *)

Module FossilIoConan.
Definition name := "fossil_io".
Definition version := "0.2.4".
Definition license := "MPL-2.0".
Definition author := "Fossil Logic <michaelbrockus@gmail.com>".
Definition url := "https://github.com/fossillogic/fossil-io".
Definition description :=
  "Fossil Io is a lightweight, portable input output stream library written in pure C with zero external dependencies.".
Definition topics :=
  VTuple (VStr <$> ["c"; "stream"; "io"; "cpp"; "meson"; "conan-recipe";
                    "mesonbuild"; "ninja-build"]).

Definition settings := VTuple (VStr <$> ["os"; "compiler"; "build_type"; "arch"]).
Definition options := VDict [("shared", VList [VBool true; VBool false])].
Definition default_options := VDict [("shared", VBool false)].

Definition exports_sources :=
  VTuple (VStr <$> ["code/**"; "meson.build"; "meson.options"]).
Definition generators := "PkgConfigDeps".

(** Define a basic build/source folder layout *)
Definition layout : prog unit :=
  setattr (folders_source ".");;
  setattr (folders_build "builddir").

(** Generate Meson toolchain files *)
Definition generate : prog unit :=
  tc ← invoke MesonToolchain_init;
  invoke (MesonToolchain_generate tc);;
  mret tt.

(** Configure and build the project using Meson *)
Definition build : prog unit :=
  meson ← invoke Meson_init;
  invoke (Meson_configure meson);;
  invoke (Meson_build meson);;
  mret tt.

(** The [source] of line 38. *)
Definition source_l38 : prog unit :=
  version ← getattr ConanFile.version;
  url ← getattr ConanFile.url;
  invoke (self_run ("git clone --branch v" +:+ version +:+ " --depth 1 " +:+ url));;
  mret tt.

(** Install headers and libraries into package folder *)
Definition package : prog unit :=
  meson ← invoke Meson_init;
  invoke (Meson_install meson);;
  (* Ensure headers are included even if not installed by Meson *)
  package_folder ← getattr ConanFile.package_folder;
  invoke (copy "*.h"
               "code/logic/fossil/io"
               (os_path_join package_folder ["include"; "fossil"; "io"]));;
  mret tt.

(** Set information for consumers of the package *)
Definition package_info : prog unit :=
  setattr (cpp_info_libs ["fossil_io"]);;
  setattr (cpp_info_includedirs ["include"]).

(** The [source] of line 56. *)
Definition source_l56 : prog unit :=
  version ← getattr ConanFile.version;
  url ← getattr ConanFile.url;
  invoke (self_run ("git clone --branch v" +:+ version +:+ " " +:+ url));;
  mret tt.
End FossilIoConan.

(** What a name of the class body is bound to. *)
Inductive member : Type :=
| Attr (v : pyval)
| Def (m : prog unit).

(** The statements of the class body, in the order Python executes them. *)
Definition class_body : list (string * member) :=
  [ ("name", Attr (VStr FossilIoConan.name));
    ("version", Attr (VStr FossilIoConan.version));
    ("license", Attr (VStr FossilIoConan.license));
    ("author", Attr (VStr FossilIoConan.author));
    ("url", Attr (VStr FossilIoConan.url));
    ("description", Attr (VStr FossilIoConan.description));
    ("topics", Attr FossilIoConan.topics);
    ("settings", Attr FossilIoConan.settings);
    ("options", Attr FossilIoConan.options);
    ("default_options", Attr FossilIoConan.default_options);
    ("exports_sources", Attr FossilIoConan.exports_sources);
    ("generators", Attr (VStr FossilIoConan.generators));
    ("layout", Def FossilIoConan.layout);
    ("generate", Def FossilIoConan.generate);
    ("build", Def FossilIoConan.build);
    ("source", Def FossilIoConan.source_l38);
    ("package", Def FossilIoConan.package);
    ("package_info", Def FossilIoConan.package_info);
    ("source", Def FossilIoConan.source_l56) ].

(** Each statement of a class body assigns into the class namespace, so a
    later binding of a name replaces an earlier one. *)
Definition bind_member (ns : gmap string member) (b : string * member)
  : gmap string member := <[b.1 := b.2]> ns.

Definition class_dict : gmap string member := foldl bind_member ∅ class_body.

(** [self.<name>] for a method: what the class namespace holds. *)
Definition method_of (name : string) : option (prog unit) :=
  match class_dict !! name with
  | Some (Def m) => Some m
  | _ => None
  end.

(** ** Running a method *)

Inductive outcome (A : Type) : Type :=
| Returned (a : A)
| Raised (e : exn).
Arguments Returned {A} a.
Arguments Raised {A} e.

(** One entry of the log of a run: the call and how it ended. *)
Definition event : Type := call * (exn + pyval).

Definition succeeded (ev : event) : Prop := ∃ r, ev.2 = inr r.

Module Run.
(** What a run leaves behind: how it ended, the state of [self], the
    helper calls in the order they were made, the world, the assignments
    to [self] in the order they were made, and the number of threads
    that were started. *)
Record t (A World : Type) : Type := mk {
  outcome_of : outcome A;
  self_of : ConanFile.t;
  log : list event;
  world : World;
  assigned : list assignment;
  threads : nat
}.
Arguments mk {A World} _ _ _ _ _ _.
Arguments outcome_of {A World} _.
Arguments self_of {A World} _.
Arguments log {A World} _.
Arguments world {A World} _.
Arguments assigned {A World} _.
Arguments threads {A World} _.

Definition calls {A World} (r : t A World) : list call := fst <$> log r.

(** Prepending the events of an earlier part of the run. *)
Definition after {A World} (pre : list event) (r : t A World) : t A World :=
  mk (outcome_of r) (self_of r) (pre ++ log r) (world r) (assigned r) (threads r).

(** Prepending an assignment made earlier in the run. *)
Definition after_assignment {A World} (a : assignment) (r : t A World)
  : t A World :=
  mk (outcome_of r) (self_of r) (log r) (world r) (a :: assigned r) (threads r).

(** The run [r] when it comes after all of the run [first]. *)
Definition after_run {A B World} (first : t B World) (r : t A World)
  : t A World :=
  mk (outcome_of r) (self_of r) (log first ++ log r) (world r)
     (assigned first ++ assigned r) (threads first + threads r).

(** A run that ended with the exception [e]. *)
Definition raising {A B World} (e : exn) (r : t B World) : t A World :=
  mk (Raised e) (self_of r) (log r) (world r) (assigned r) (threads r).

(** One more thread was started. *)
Definition with_thread {A World} (r : t A World) : t A World :=
  mk (outcome_of r) (self_of r) (log r) (world r) (assigned r) (S (threads r)).
End Run.

Section Exec.
Context {World : Type}.

(** The helpers of one run.  A helper is handed [self], which it may
    read, and the world; it either raises or returns a value, and leaves
    a world.  The helpers of Conan do not assign to the attributes of the
    recipe object that the recipe names, and here no helper does. *)
Variable tool : call → ConanFile.t → World → (exn + pyval) * World.

(** Python runs the statements of a body in order.  A helper that raises
    ends the body at that call, unless the call is inside a [try].  A
    thread may run while the rest of the body goes on; [exec] takes the
    order in which the thread has finished before the body goes on, and
    an exception in the thread does not reach the body. *)
Fixpoint exec {A : Type} (p : prog A) (self : ConanFile.t) (w : World) : Run.t A World :=
  match p with
  | Ret a => Run.mk (Returned a) self [] w [] 0
  | Raise e => Run.mk (Raised e) self [] w [] 0
  | Get k => exec (k self) self w
  | Put a k => Run.after_assignment a (exec k (assign a self) w)
  | Call c k =>
      match tool c self w with
      | (inl e, w') => Run.mk (Raised e) self [(c, inl e)] w' [] 0
      | (inr r, w') => Run.after [(c, inr r)] (exec (k r) self w')
      end
  | Try body handler k =>
      let r1 := exec body self w in
      match Run.outcome_of r1 with
      | Returned _ =>
          Run.after_run r1 (exec k (Run.self_of r1) (Run.world r1))
      | Raised e =>
          let r2 := Run.after_run r1
                      (exec (handler e) (Run.self_of r1) (Run.world r1)) in
          match Run.outcome_of r2 with
          | Returned _ =>
              Run.after_run r2 (exec k (Run.self_of r2) (Run.world r2))
          | Raised e' => Run.raising e' r2
          end
      end
  | Spawn body k =>
      let r1 := exec body self w in
      Run.with_thread (Run.after_run r1 (exec k (Run.self_of r1) (Run.world r1)))
  end.
End Exec.

(** A body with no [raise], no [try] and no thread in it. *)
Inductive plain : ∀ {A}, prog A → Prop :=
| plain_Ret {A} (a : A) : plain (Ret a)
| plain_Get {A} (k : ConanFile.t → prog A) :
    (∀ self, plain (k self)) → plain (Get k)
| plain_Put {A} a (k : prog A) : plain k → plain (Put a k)
| plain_Call {A} c (k : pyval → prog A) :
    (∀ r, plain (k r)) → plain (Call c k).

(** The helpers when none of them fails: every call returns [answers c]. *)
Definition always (answers : call → pyval) (c : call) (self : ConanFile.t)
    (w : unit) : (exn + pyval) * unit := (inr (answers c), w).

(** The calls a body makes when no helper fails. *)
Definition trace {A} (answers : call → pyval) (p : prog A) (self : ConanFile.t)
  : list call := Run.calls (exec (always answers) p self tt).

(** Calls that hand work to an external tool or copy files; building a
    helper object ([Meson(self)], [MesonToolchain(self)]) does neither. *)
Definition is_delegation (c : call) : bool :=
  match c with
  | MesonToolchain_init | Meson_init => false
  | _ => true
  end.

Definition delegations {A} (answers : call → pyval) (p : prog A) (self : ConanFile.t)
  : list call := filter (λ c, is_delegation c = true) (trace answers p self).

(** A run in which errors propagate: a run that returns saw no helper
    fail, and a run that raises [e] ends at the one call that failed,
    with the error of that call. *)
Definition propagates {A World} (r : Run.t A World) : Prop :=
  match Run.outcome_of r with
  | Returned _ => Forall succeeded (Run.log r)
  | Raised e => ∃ pre c, Run.log r = pre ++ [(c, inl e)] ∧ Forall succeeded pre
  end.

(** ** Reading the class body and a command line *)

(** The recipe object Conan makes from the class: [self.version] and
    [self.url] are the class attributes; the rest is set by Conan. *)
Definition instantiate (package_folder : string) (options : Options.t)
    (folders : Folders.t) (cpp_info : CppInfo.t) (other : gmap string pyval)
  : ConanFile.t :=
  ConanFile.mk FossilIoConan.version FossilIoConan.url
               package_folder options folders cpp_info other.

(** [self.options.shared = b] *)
Definition with_shared (b : bool) : ConanFile.t → ConanFile.t :=
  ConanFile.set_options (λ _, Options.mk b).


(** A run that follows a script: it makes the calls of the script in
    their order, goes on to the next call whenever a call returns, and
    stops before the end only at a call that raises. *)
Definition follows {A World} (script : list call) (r : Run.t A World) : Prop :=
  Run.calls r `prefix_of` script ∧ propagates r ∧
  ∀ a, Run.outcome_of r = Returned a → Run.calls r = script.

Definition dict_keys (v : pyval) : list string :=
  match v with
  | VDict items => fst <$> items
  | _ => []
  end.

Definition dict_get (key : string) (v : pyval) : option pyval :=
  match v with
  | VDict items => (λ hit, hit.2.2) <$> list_find (λ kv, kv.1 = key) items
  | _ => None
  end.

(** The word after [flag] on a command line. *)
Fixpoint option_value (flag : string) (args : list string) : option string :=
  match args with
  | [] => None
  | a :: rest => if decide (a = flag) then head rest else option_value flag rest
  end.

(** Options of [git clone] that take the next word as their value. *)
Definition takes_value (a : string) : bool :=
  bool_decide (a ∈ ["--branch"; "-b"; "--depth"; "--origin"; "-o"]).

(** The words of a [git clone] command line that are neither options nor
    values of options. *)
Fixpoint positionals (skip : bool) (args : list string) : list string :=
  match args with
  | [] => []
  | a :: rest =>
      if skip then positionals false rest
      else if takes_value a then positionals true rest
      else if String.prefix "-" a then positionals false rest
      else a :: positionals false rest
  end.

(** [package_folder] as a directory prefix. *)
Definition as_dir (path : string) : string :=
  if bool_decide (path = "") || endswith_sep path then path else path +:+ "/".

(** ** A small world to run the recipe in *)

Module Sim.
(** [fnmatch] for patterns made of literal characters, [?] and [*]. *)
Fixpoint fnmatch (name pattern : string) {struct pattern} : bool :=
  match pattern with
  | EmptyString => bool_decide (name = "")
  | String "*" pattern' =>
      (fix star (name : string) : bool :=
         fnmatch name pattern' ||
         match name with
         | EmptyString => false
         | String _ name' => star name'
         end) name
  | String p pattern' =>
      match name with
      | EmptyString => false
      | String c name' =>
          (bool_decide (p = "?"%char) || bool_decide (p = c)) && fnmatch name' pattern'
      end
  end.

Fixpoint strip_prefix (p s : string) : option string :=
  match p, s with
  | EmptyString, _ => Some s
  | String a p', String b s' => if decide (a = b) then strip_prefix p' s' else None
  | String _ _, EmptyString => None
  end.

(** The path of a file relative to a directory, when it lies below it. *)
Definition relative_to (dir path : string) : option string :=
  strip_prefix (dir +:+ "/") path.

(** The world: the working directory of the process that runs the
    method, and the files that exist, by absolute path. *)
Record World : Type := mkWorld { cwd : string; files : list string }.

(** A path as the process resolves it: a relative path is taken from the
    working directory. *)
Definition abspath (w : World) (path : string) : string :=
  os_path_join (cwd w) [path].

Definition write (path : string) (w : World) : World :=
  mkWorld (cwd w) (abspath w path :: files w).

(** The library Meson builds: shared or static, as [self.options.shared]
    says. *)
Definition library (self : ConanFile.t) : string :=
  if Options.shared (ConanFile.options self)
  then "libfossil_io.so" else "libfossil_io.a".

(** Helpers that work, except the calls [broken] singles out, which
    raise.  Meson writes its outputs and installs the library into the
    package folder; [copy] copies the files below [src] whose relative
    path matches [pattern] to the same relative path below [dst]. *)
Definition tool (broken : call → bool) (c : call) (self : ConanFile.t)
    (w : World) : (exn + pyval) * World :=
  if broken c then (inl (Exception "ConanException" "command failed"), w)
  else match c with
  | MesonToolchain_init => (inr (VObject 1), w)
  | MesonToolchain_generate _ => (inr VNone, write "conan_meson_native.ini" w)
  | Meson_init => (inr (VObject 2), w)
  | Meson_configure _ => (inr VNone, write "build.ninja" w)
  | Meson_build _ => (inr VNone, write (library self) w)
  | Meson_install _ =>
      (inr VNone,
       write (os_path_join (ConanFile.package_folder self) ["lib"; library self]) w)
  | self_run _ => (inr (VInt 0), write "fossil-io/meson.build" w)
  | copy pattern src dst =>
      let rels := filter (λ rel, fnmatch rel pattern = true)
                         (omap (relative_to (abspath w src)) (files w)) in
      let copied := (λ rel, abspath w dst +:+ "/" +:+ rel) <$> rels in
      (inr (VList (VStr <$> copied)), mkWorld (cwd w) (copied ++ files w))
  end.


Definition works (c : call) : bool := false.

Definition configure_fails (c : call) : bool :=
  match c with Meson_configure _ => true | _ => false end.

Definition self0 : ConanFile.t :=
  instantiate "/pkg" (Options.mk false) (Folders.mk "" "") (CppInfo.mk [] []) ∅.

(** The sources of the library, exported to [/recipe]. *)
Definition sources : list string :=
  [ "/recipe/code/logic/fossil/io/stream.h";
    "/recipe/code/logic/fossil/io/output.h";
    "/recipe/code/logic/fossil/io/meson.build";
    "/recipe/code/logic/stream.c" ].

(** The world in which Conan calls [build] and [package]: the working
    directory is the build folder, which [layout] names [builddir]. *)
Definition world0 : World := mkWorld "/recipe/builddir" sources.

(** The same files seen from the source folder. *)
Definition world_at_source_root : World := mkWorld "/recipe" sources.
End Sim.

(** ** Further observations on runs, names and words *)

(** The object a helper method is called on. *)
Definition receiver (c : call) : option pyval :=
  match c with
  | MesonToolchain_generate tc => Some tc
  | Meson_configure meson | Meson_build meson | Meson_install meson => Some meson
  | MesonToolchain_init | Meson_init | self_run _ | copy _ _ _ => None
  end.

(** The constructor of the helper object a method is called on. *)
Definition constructor_of (c : call) : option call :=
  match c with
  | MesonToolchain_generate _ => Some MesonToolchain_init
  | Meson_configure _ | Meson_build _ | Meson_install _ => Some Meson_init
  | MesonToolchain_init | Meson_init | self_run _ | copy _ _ _ => None
  end.

(** Two runs that cannot be told apart from outside the recipe object:
    the same outcome, the same log and the same world. *)
Definition same_run {A World} (r1 r2 : Run.t A World) : Prop :=
  Run.outcome_of r1 = Run.outcome_of r2 ∧ Run.log r1 = Run.log r2 ∧
  Run.world r1 = Run.world r2.

(** A string without white space, as [String.words] sees it. *)
Fixpoint no_space (s : string) : bool :=
  match s with
  | EmptyString => true
  | String a rest => negb (Ascii.is_space a) && no_space rest
  end.

(** Characters a POSIX shell hands on as they are, wherever they stand in
    a word: letters, digits and [. _ - / : + @]. *)
Definition shell_literal_char (a : ascii) : bool :=
  let n := N_of_ascii a in
  ((48 <=? n) && (n <=? 57) || (65 <=? n) && (n <=? 90) ||
   (97 <=? n) && (n <=? 122))%N ||
  bool_decide (a ∈ ["."; "_"; "-"; "/"; ":"; "+"; "@"]%char).

(** A string the shell reads as one word, the word being the string. *)
Fixpoint shell_literal (s : string) : bool :=
  match s with
  | EmptyString => true
  | String a rest => shell_literal_char a && shell_literal rest
  end.

(** * Properties *)

(** ** The class namespace *)

(** The six names that are bound to methods, and what each is bound to. *)
Lemma method_of_cases name m :
  method_of name = Some m →
  (name = "layout" ∧ m = FossilIoConan.layout) ∨
  (name = "generate" ∧ m = FossilIoConan.generate) ∨
  (name = "build" ∧ m = FossilIoConan.build) ∨
  (name = "source" ∧ m = FossilIoConan.source_l56) ∨
  (name = "package" ∧ m = FossilIoConan.package) ∨
  (name = "package_info" ∧ m = FossilIoConan.package_info).
Proof.
  unfold method_of, class_dict, class_body.
  cbn [foldl]. unfold bind_member. cbn [fst snd].
  repeat (rewrite lookup_insert; case_decide;
          [ subst name; intros Hm; try discriminate Hm; try congruence;
            injection Hm as <-; tauto | ]).
  rewrite lookup_empty. discriminate.
Qed.

(** A statement about every method follows from the six cases. *)
Lemma methods_ind (P : string → prog unit → Prop) :
  P "layout" FossilIoConan.layout →
  P "generate" FossilIoConan.generate →
  P "build" FossilIoConan.build →
  P "source" FossilIoConan.source_l56 →
  P "package" FossilIoConan.package →
  P "package_info" FossilIoConan.package_info →
  ∀ name m, method_of name = Some m → P name m.
Proof.
  intros ? ? ? ? ? ? name m Hm.
  destruct (method_of_cases name m Hm) as [[-> ->]|[[-> ->]|[[-> ->]|[[-> ->]|[[-> ->]|[-> ->]]]]]];
    assumption.
Qed.

(** ** Bodies without [raise], [try] and threads *)

Lemma plain_bind {A B} (p : prog A) (f : A → prog B) :
  plain p → (∀ a, plain (f a)) → plain (p ≫= f).
Proof.
  intros Hp Hf. induction Hp; cbn; try constructor; auto.
Qed.

Lemma plain_getattr {A} (proj : ConanFile.t → A) : plain (getattr proj).
Proof. repeat constructor. Qed.

Lemma plain_setattr a : plain (setattr a).
Proof. repeat constructor. Qed.

Lemma plain_invoke c : plain (invoke c).
Proof. repeat constructor. Qed.

Create HintDb plain.
#[local] Hint Resolve plain_getattr plain_setattr plain_invoke : plain.
#[local] Hint Constructors plain : plain.

Ltac plain_body :=
  repeat first
    [ apply plain_bind; [ auto with plain | intros ? ]
    | solve [ auto with plain ]
    | apply plain_Ret ].

(** No method of the class raises, catches or starts a thread by itself. *)
Lemma methods_plain name m : method_of name = Some m → plain m.
Proof.
  revert name m. apply methods_ind; unfold FossilIoConan.layout,
    FossilIoConan.generate, FossilIoConan.build, FossilIoConan.source_l56,
    FossilIoConan.package, FossilIoConan.package_info; plain_body.
Qed.

Section ExecFacts.
Context {World : Type}.
Variable tool : call → ConanFile.t → World → (exn + pyval) * World.

Lemma propagates_after {A} (pre : list event) (r : Run.t A World) :
  Forall succeeded pre → propagates r → propagates (Run.after pre r).
Proof.
  unfold propagates, Run.after; cbn. intros Hpre.
  destruct (Run.outcome_of r) as [a|e].
  - intros Hlog. by apply Forall_app.
  - intros (pre' & c & -> & Hpre'). exists (pre ++ pre'), c.
    split; [by rewrite (assoc_L (++))|by apply Forall_app].
Qed.

(** In a body without [raise], [try] and threads the first helper that
    fails ends the run, with the error of that helper. *)
Lemma exec_plain_propagates {A} (p : prog A) :
  plain p → ∀ self w, propagates (exec tool p self w).
Proof.
  induction 1 as [A a|A k _ IH|A a k _ IH|A c k _ IH]; intros self w; cbn.
  - constructor.
  - apply IH.
  - exact (IH _ _).
  - destruct (tool c self w) as [[e|r] w'].
    + exists [], c. split; [done|constructor].
    + apply propagates_after; [|apply IH].
      repeat constructor. by exists r.
Qed.

(** What [propagates] says about a call that failed. *)
Lemma propagates_failed {A} (r : Run.t A World) c e :
  propagates r → (c, inl e) ∈ Run.log r →
  Run.outcome_of r = Raised e ∧ last (Run.log r) = Some (c, inl e).
Proof.
  unfold propagates. destruct (Run.outcome_of r) as [a|e'].
  - intros Hall Hin. rewrite Forall_forall in Hall.
    destruct (Hall _ Hin) as [x Hx]. discriminate Hx.
  - intros (pre & c' & -> & Hpre) Hin.
    rewrite last_snoc. apply elem_of_app in Hin as [Hin|Hin].
    + rewrite Forall_forall in Hpre.
      destruct (Hpre _ Hin) as [x Hx]. discriminate Hx.
    + apply list_elem_of_singleton in Hin. by simplify_eq.
Qed.
End ExecFacts.

(** ** Case analysis on the answers of the helpers *)

Ltac unfold_methods :=
  unfold FossilIoConan.layout, FossilIoConan.generate, FossilIoConan.build,
    FossilIoConan.source_l38, FossilIoConan.source_l56,
    FossilIoConan.package, FossilIoConan.package_info in *.

(** Runs a body symbolically, splitting on whether each helper call
    raises or returns. *)
Ltac run_cases tool :=
  unfold_methods; cbn;
  repeat (match goal with
          | |- context [tool ?c ?s ?w] =>
              destruct (tool c s w) as [[?e|?r] ?w] eqn:?; cbn
          end).

(** ** layout *)

(** C8: the layout operation always sets the source folder to "." and the
    build folder to "builddir", and sets nothing else: it returns, calls no
    helper, leaves the world alone, and every other attribute of the recipe
    object keeps its value. *)
Theorem layout_sets_source_and_build :
  method_of "layout" = Some FossilIoConan.layout ∧
  ∀ (World : Type) (tool : call → ConanFile.t → World → (exn + pyval) * World) self w,
    let r := exec tool FossilIoConan.layout self w in
    let self' := Run.self_of r in
    Run.outcome_of r = Returned tt ∧ Run.log r = [] ∧ Run.world r = w ∧
    Folders.source (ConanFile.folders self') = "." ∧
    Folders.build (ConanFile.folders self') = "builddir" ∧
    ConanFile.version self' = ConanFile.version self ∧
    ConanFile.url self' = ConanFile.url self ∧
    ConanFile.package_folder self' = ConanFile.package_folder self ∧
    ConanFile.options self' = ConanFile.options self ∧
    ConanFile.cpp_info self' = ConanFile.cpp_info self ∧
    ConanFile.other self' = ConanFile.other self.
Proof.
  split; [reflexivity|]. intros World tool self w. cbn. repeat split.
Qed.

(** ** package_info *)

(** C2: package_info always emits metadata with exactly one library name,
    [fossil_io], and exactly one include directory, [include]. *)
Theorem package_info_one_lib_one_includedir :
  method_of "package_info" = Some FossilIoConan.package_info ∧
  ∀ (World : Type) (tool : call → ConanFile.t → World → (exn + pyval) * World) self w,
    let r := exec tool FossilIoConan.package_info self w in
    let info := ConanFile.cpp_info (Run.self_of r) in
    Run.outcome_of r = Returned tt ∧
    CppInfo.libs info = ["fossil_io"] ∧ length (CppInfo.libs info) = 1 ∧
    CppInfo.includedirs info = ["include"] ∧
    length (CppInfo.includedirs info) = 1.
Proof.
  split; [reflexivity|]. intros World tool self w. cbn. repeat split.
Qed.

(** ** options *)

(** C6: the recipe declares exactly one option, [shared]; its admissible
    values are True and False, and its default is False. *)
Theorem options_single_boolean_shared :
  ∃ opts defaults,
    class_dict !! "options" = Some (Attr opts) ∧
    class_dict !! "default_options" = Some (Attr defaults) ∧
    dict_keys opts = ["shared"] ∧
    dict_get "shared" opts = Some (VList [VBool true; VBool false]) ∧
    dict_keys defaults = ["shared"] ∧
    dict_get "shared" defaults = Some (VBool false).
Proof.
  exists FossilIoConan.options, FossilIoConan.default_options.
  repeat split.
Qed.

(** ** source *)

Section Source.
Context {World : Type}.
Variable tool : call → ConanFile.t → World → (exn + pyval) * World.

(** The one call of the [source] of line 56, whatever the helper does. *)
Lemma source_l56_calls self w :
  Run.calls (exec tool FossilIoConan.source_l56 self w) =
  [self_run ("git clone --branch v" +:+ ConanFile.version self +:+ " "
               +:+ ConanFile.url self)].
Proof. run_cases tool; reflexivity. Qed.

(** The one call of the [source] of line 38. *)
Lemma source_l38_calls self w :
  Run.calls (exec tool FossilIoConan.source_l38 self w) =
  [self_run ("git clone --branch v" +:+ ConanFile.version self
               +:+ " --depth 1 " +:+ ConanFile.url self)].
Proof. run_cases tool; reflexivity. Qed.
End Source.

Lemma string_length_app (s t : string) :
  String.length (s +:+ t) = String.length s + String.length t.
Proof.
  induction s as [|c s IH]; [done|].
  change (S (String.length (s +:+ t)) = S (String.length s + String.length t)).
  by rewrite IH.
Qed.

Lemma string_app_assoc (s t u : string) : (s +:+ t) +:+ u = s +:+ (t +:+ u).
Proof.
  induction s as [|c s IH]; [done|].
  change ((String c s +:+ t) +:+ u) with (String c ((s +:+ t) +:+ u)).
  by rewrite IH.
Qed.

(** The two [source] bodies never build the same command. *)
Lemma source_commands_differ (version url : string) :
  "git clone --branch v" +:+ version +:+ " " +:+ url ≠
  "git clone --branch v" +:+ version +:+ " --depth 1 " +:+ url.
Proof.
  intros Heq.
  apply (inj (String.app "git clone --branch v")) in Heq.
  apply (inj (String.app version)) in Heq.
  apply (f_equal String.length) in Heq. cbn in Heq.
  rewrite !string_length_app in Heq. cbn in Heq. lia.
Qed.

(** C3: the source operation clones a tagged revision: the [source] the
    class binds runs one command, [git clone], whose [--branch] argument is
    "v" followed by the declared version (v0.2.4) and whose repository
    argument is the declared url. *)
Theorem source_clones_tagged_revision :
  ∃ m, method_of "source" = Some m ∧
    ∀ (World : Type) (tool : call → ConanFile.t → World → (exn + pyval) * World) w,
      (∀ self,
         Run.calls (exec tool m self w) =
         [self_run ("git clone --branch " +:+ ("v" +:+ ConanFile.version self)
                      +:+ " " +:+ ConanFile.url self)]) ∧
      (∀ package_folder options folders cpp_info other,
         let self := instantiate package_folder options folders cpp_info other in
         ∃ command args,
           Run.calls (exec tool m self w) = [self_run command] ∧
           String.words command = "git" :: "clone" :: args ∧
           option_value "--branch" args = Some ("v" +:+ FossilIoConan.version) ∧
           "v" +:+ FossilIoConan.version = "v0.2.4" ∧
           positionals false args = [FossilIoConan.url]).
Proof.
  exists FossilIoConan.source_l56. split; [reflexivity|].
  intros World tool w. split.
  - intros self. rewrite source_l56_calls. reflexivity.
  - intros pf o f c oth self.
    exists "git clone --branch v0.2.4 https://github.com/fossillogic/fossil-io",
           ["--branch"; "v0.2.4"; "https://github.com/fossillogic/fossil-io"].
    split; [|by vm_compute].
    subst self. rewrite source_l56_calls. reflexivity.
Qed.

(** C4: the class body defines [source] twice and the later definition is
    the one bound.  The clone it runs has no [--depth] option, while the
    definition of line 38, which asks for [--depth 1], is bound to no name
    of the class: no method makes the call that it would make. *)
Theorem effective_source_is_not_shallow :
  method_of "source" = Some FossilIoConan.source_l56 ∧
  ∀ (World : Type) (tool : call → ConanFile.t → World → (exn + pyval) * World) w,
    (∀ package_folder options folders cpp_info other,
       let self := instantiate package_folder options folders cpp_info other in
       ∃ command shallow,
         Run.calls (exec tool FossilIoConan.source_l56 self w) = [self_run command] ∧
         command = "git clone --branch v0.2.4 https://github.com/fossillogic/fossil-io" ∧
         ("--depth" ∉ String.words command) ∧
         Run.calls (exec tool FossilIoConan.source_l38 self w) = [self_run shallow] ∧
         option_value "--depth" (String.words shallow) = Some "1") ∧
    (∀ name m self, method_of name = Some m →
       (Run.calls (exec tool m self w) ≠
        Run.calls (exec tool FossilIoConan.source_l38 self w))).
Proof.
  split; [reflexivity|]. intros World tool w. split.
  - intros pf o f c oth self.
    exists "git clone --branch v0.2.4 https://github.com/fossillogic/fossil-io",
           "git clone --branch v0.2.4 --depth 1 https://github.com/fossillogic/fossil-io".
    subst self. rewrite source_l56_calls, source_l38_calls.
    repeat split. vm_compute. intros Hin.
    repeat (apply elem_of_cons in Hin as [Hin|Hin]; [discriminate Hin|]).
    by apply elem_of_nil in Hin.
  - intros name m self Hm. rewrite source_l38_calls. revert name m Hm.
    apply methods_ind; try (run_cases tool; discriminate).
    rewrite source_l56_calls. intros Heq.
    apply (f_equal (λ l, match l with [self_run s] => s | _ => "" end)) in Heq.
    cbv beta iota in Heq. by apply source_commands_differ in Heq.
Qed.

(** ** The shape of the six bodies *)

Section Shape.
Variable answers : call → pyval.
Variable self : ConanFile.t.

Lemma trace_layout : trace answers FossilIoConan.layout self = [].
Proof. reflexivity. Qed.

Lemma trace_generate :
  trace answers FossilIoConan.generate self =
  [MesonToolchain_init; MesonToolchain_generate (answers MesonToolchain_init)].
Proof. reflexivity. Qed.

Lemma trace_build :
  trace answers FossilIoConan.build self =
  [Meson_init; Meson_configure (answers Meson_init);
   Meson_build (answers Meson_init)].
Proof. reflexivity. Qed.

Lemma trace_source :
  trace answers FossilIoConan.source_l56 self =
  [self_run ("git clone --branch v" +:+ ConanFile.version self +:+ " "
               +:+ ConanFile.url self)].
Proof. reflexivity. Qed.

Lemma trace_package :
  trace answers FossilIoConan.package self =
  [Meson_init; Meson_install (answers Meson_init);
   copy "*.h" "code/logic/fossil/io"
        (os_path_join (ConanFile.package_folder self) ["include"; "fossil"; "io"])].
Proof. reflexivity. Qed.

Lemma trace_package_info : trace answers FossilIoConan.package_info self = [].
Proof. reflexivity. Qed.
End Shape.

Example os_path_join_pkg :
  os_path_join "/pkg" ["include"; "fossil"; "io"] = "/pkg/include/fossil/io".
Proof. reflexivity. Qed.

Example os_path_join_absolute_component :
  os_path_join "/pkg" ["include"; "/fossil"; "io"] = "/fossil/io".
Proof. reflexivity. Qed.

(** [package] run from the source folder: Meson installs the library,
    then the two headers are copied; the other files stay where they
    are. *)
Example package_from_the_source_folder :
  let r := exec (Sim.tool Sim.works) FossilIoConan.package Sim.self0
                Sim.world_at_source_root in
  Run.outcome_of r = Returned tt ∧
  Sim.files (Run.world r) =
    [ "/pkg/include/fossil/io/stream.h"; "/pkg/include/fossil/io/output.h";
      "/pkg/lib/libfossil_io.a" ] ++ Sim.sources.
Proof. split; reflexivity. Qed.

(** A body that starts a thread: the run says so. *)
Example spawn_is_counted :
  let body := Spawn (invoke Meson_init;; mret tt) (Ret tt) in
  Run.threads (exec (Sim.tool Sim.works) body Sim.self0 Sim.world0) = 1.
Proof. reflexivity. Qed.

(** [build] in a world where configure fails: the build step is never
    reached and the exception of configure is the outcome. *)
Example build_when_configure_fails :
  let r := exec (Sim.tool Sim.configure_fails) FossilIoConan.build
                Sim.self0 Sim.world0 in
  Run.outcome_of r = Raised (Exception "ConanException" "command failed") ∧
  Run.log r =
    [ (Meson_init, inr (VObject 2));
      (Meson_configure (VObject 2),
       inl (Exception "ConanException" "command failed")) ] ∧
  Run.world r = Sim.world0.
Proof. repeat split. Qed.

(** C5, as the claim states it, fails: [build] hands work to Meson twice
    (configure, then build), so not every method makes exactly one
    delegation. *)
Lemma not_every_method_is_one_delegation :
  ¬ (∀ name m, method_of name = Some m →
       ∀ answers self, length (delegations answers m self) = 1).
Proof.
  intros Hall.
  specialize (Hall "build" FossilIoConan.build eq_refl (λ _, VNone) Sim.self0).
  vm_compute in Hall. discriminate Hall.
Qed.

(** The six bodies under any helpers: what they assign and the script
    of calls they follow. *)
Section Scripts.
Context {World : Type}.
Variable tool : call → ConanFile.t → World → (exn + pyval) * World.
Variables (self : ConanFile.t) (w : World).

Ltac follow_script :=
  split; [|split];
  [ first [ by (eexists; reflexivity) ]
  | apply exec_plain_propagates; eapply methods_plain; reflexivity
  | intros ? Hret; first [discriminate Hret | reflexivity] ].

Lemma generate_follows :
  ∃ tc, follows [MesonToolchain_init; MesonToolchain_generate tc]
                (exec tool FossilIoConan.generate self w).
Proof.
  destruct (tool MesonToolchain_init self w) as [[e|tc] w1] eqn:Hinit.
  - exists VNone. unfold follows, propagates, Run.calls. unfold_methods.
    cbn. rewrite Hinit. cbn. repeat split.
    + by eexists.
    + exists [], MesonToolchain_init. by split.
    + discriminate.
  - exists tc. unfold follows, propagates, Run.calls. unfold_methods.
    cbn. rewrite Hinit. cbn.
    destruct (tool (MesonToolchain_generate tc) self w1) as [[e|ok] w2]; cbn;
      repeat split; try discriminate; try (by eexists);
      try (repeat constructor; by eexists).
    exists [(MesonToolchain_init, inr tc)], (MesonToolchain_generate tc).
    split; [done|]. repeat constructor. by eexists.
Qed.

Lemma source_follows :
  follows [self_run ("git clone --branch v" +:+ ConanFile.version self +:+ " "
                       +:+ ConanFile.url self)]
          (exec tool FossilIoConan.source_l56 self w).
Proof.
  unfold follows, propagates, Run.calls. unfold_methods. cbn.
  destruct (tool _ self w) as [[e|ok] w1]; cbn;
    repeat split; try discriminate; try (by eexists);
    try (repeat constructor; by eexists).
  eexists [], _. by split.
Qed.

Lemma build_follows :
  ∃ meson, follows [Meson_init; Meson_configure meson; Meson_build meson]
                   (exec tool FossilIoConan.build self w).
Proof.
  destruct (tool Meson_init self w) as [[e|meson] w1] eqn:Hinit.
  - exists VNone. unfold follows, propagates, Run.calls. unfold_methods.
    cbn. rewrite Hinit. cbn. repeat split.
    + by eexists.
    + exists [], Meson_init. by split.
    + discriminate.
  - exists meson. unfold follows, propagates, Run.calls. unfold_methods.
    cbn. rewrite Hinit. cbn.
    destruct (tool (Meson_configure meson) self w1) as [[e|ok] w2]; cbn.
    + repeat split; try discriminate; try (by eexists).
      exists [(Meson_init, inr meson)], (Meson_configure meson).
      split; [done|]. repeat constructor. by eexists.
    + destruct (tool (Meson_build meson) self w2) as [[e|ok'] w3]; cbn;
        repeat split; try discriminate; try (by eexists);
        try (repeat constructor; by eexists).
      exists [(Meson_init, inr meson); (Meson_configure meson, inr ok)],
             (Meson_build meson).
      split; [done|]. repeat constructor; by eexists.
Qed.

Lemma package_follows :
  ∃ meson, follows [Meson_init; Meson_install meson;
                    copy "*.h" "code/logic/fossil/io"
                         (os_path_join (ConanFile.package_folder self)
                                       ["include"; "fossil"; "io"])]
                   (exec tool FossilIoConan.package self w).
Proof.
  destruct (tool Meson_init self w) as [[e|meson] w1] eqn:Hinit.
  - exists VNone. unfold follows, propagates, Run.calls. unfold_methods.
    cbn. rewrite Hinit. cbn. repeat split.
    + by eexists.
    + exists [], Meson_init. by split.
    + discriminate.
  - exists meson. unfold follows, propagates, Run.calls. unfold_methods.
    cbn. rewrite Hinit. cbn.
    destruct (tool (Meson_install meson) self w1) as [[e|ok] w2]; cbn.
    + repeat split; try discriminate; try (by eexists).
      exists [(Meson_init, inr meson)], (Meson_install meson).
      split; [done|]. repeat constructor. by eexists.
    + destruct (tool (copy _ _ _) self w2) as [[e|ok'] w3]; cbn;
        repeat split; try discriminate; try (by eexists);
        try (repeat constructor; by eexists).
      eexists [(Meson_init, inr meson); (Meson_install meson, inr ok)], _.
      split; [done|]. repeat constructor; by eexists.
Qed.

Lemma assigned_by_methods :
  Run.assigned (exec tool FossilIoConan.layout self w) =
    [folders_source "."; folders_build "builddir"] ∧
  Run.assigned (exec tool FossilIoConan.package_info self w) =
    [cpp_info_libs ["fossil_io"]; cpp_info_includedirs ["include"]] ∧
  Run.assigned (exec tool FossilIoConan.generate self w) = [] ∧
  Run.assigned (exec tool FossilIoConan.build self w) = [] ∧
  Run.assigned (exec tool FossilIoConan.source_l56 self w) = [] ∧
  Run.assigned (exec tool FossilIoConan.package self w) = [].
Proof. repeat split; run_cases tool; reflexivity. Qed.

(** No method starts a thread, and none makes a call twice. *)
Lemma no_thread_no_repeat name m :
  method_of name = Some m →
  Run.threads (exec tool m self w) = 0 ∧ NoDup (Run.calls (exec tool m self w)).
Proof.
  revert name m.
  apply (methods_ind (λ _ m, Run.threads (exec tool m self w) = 0 ∧
                             NoDup (Run.calls (exec tool m self w))));
    run_cases tool; (split; [reflexivity|]);
    repeat (apply NoDup_cons_2;
            [ rewrite ?elem_of_cons, elem_of_nil; intros Hin;
              repeat (destruct Hin as [Hin|Hin]; [discriminate Hin|]);
              exact Hin |]);
    apply NoDup_nil_2.
Qed.
End Scripts.

(** A [layout] that looked at an option and then made a third
    assignment would not make the same assignments from every state. *)
Example branching_layout_is_told_apart :
  let branching :=
    shared ← getattr (λ self, Options.shared (ConanFile.options self));
    if shared : bool
    then FossilIoConan.layout;; setattr (cpp_info_libs [])
    else FossilIoConan.layout in
  Run.assigned (exec (Sim.tool Sim.works) branching
                     (with_shared true Sim.self0) Sim.world0) ≠
  Run.assigned (exec (Sim.tool Sim.works) branching
                     (with_shared false Sim.self0) Sim.world0).
Proof. cbn. discriminate. Qed.

(** C5, amended: every method is a straight line with no branching logic,
    retries or concurrency.  No body has a [raise], a [try] or a thread
    in it; under any helpers and from any state of the recipe object a
    run starts no thread, makes no call twice, stops at the first call
    that raises, and makes the same assignments and follows the same
    script of calls.  [generate] and [source] make one delegation each;
    [build] makes two, configure then build; [package] makes two, install
    then one copy of headers; [layout] and [package_info] make none, each
    makes exactly two assignments. *)
Theorem methods_are_straight_lines :
  (∀ name m, method_of name = Some m → plain m) ∧
  (∀ (World : Type) (tool : call → ConanFile.t → World → (exn + pyval) * World)
     self w,
     let run (m : prog unit) := exec tool m self w in
     (∀ name m, method_of name = Some m →
        Run.threads (run m) = 0 ∧ NoDup (Run.calls (run m)) ∧
        propagates (run m)) ∧
     (Run.calls (run FossilIoConan.layout) = [] ∧
      Run.assigned (run FossilIoConan.layout) =
        [folders_source "."; folders_build "builddir"]) ∧
     (Run.calls (run FossilIoConan.package_info) = [] ∧
      Run.assigned (run FossilIoConan.package_info) =
        [cpp_info_libs ["fossil_io"]; cpp_info_includedirs ["include"]]) ∧
     (Run.assigned (run FossilIoConan.generate) = [] ∧
      ∃ tc, follows [MesonToolchain_init; MesonToolchain_generate tc]
                    (run FossilIoConan.generate)) ∧
     (Run.assigned (run FossilIoConan.source_l56) = [] ∧
      follows [self_run ("git clone --branch v" +:+ ConanFile.version self
                           +:+ " " +:+ ConanFile.url self)]
              (run FossilIoConan.source_l56)) ∧
     (Run.assigned (run FossilIoConan.build) = [] ∧
      ∃ meson, follows [Meson_init; Meson_configure meson; Meson_build meson]
                       (run FossilIoConan.build)) ∧
     (Run.assigned (run FossilIoConan.package) = [] ∧
      ∃ meson, follows [Meson_init; Meson_install meson;
                        copy "*.h" "code/logic/fossil/io"
                             (os_path_join (ConanFile.package_folder self)
                                           ["include"; "fossil"; "io"])]
                       (run FossilIoConan.package))) ∧
  ∀ answers self,
    let count name :=
      (λ m, length (delegations answers m self)) <$> method_of name in
    (∀ name m, method_of name = Some m → NoDup (trace answers m self)) ∧
    (∀ name m, method_of name = Some m → delegations answers m self =
       if decide (name = "generate") then
         [MesonToolchain_generate (answers MesonToolchain_init)]
       else if decide (name = "build") then
         [Meson_configure (answers Meson_init); Meson_build (answers Meson_init)]
       else if decide (name = "source") then
         [self_run ("git clone --branch v" +:+ ConanFile.version self +:+ " "
                      +:+ ConanFile.url self)]
       else if decide (name = "package") then
         [Meson_install (answers Meson_init);
          copy "*.h" "code/logic/fossil/io"
               (os_path_join (ConanFile.package_folder self)
                             ["include"; "fossil"; "io"])]
       else []) ∧
    count "layout" = Some 0 ∧ count "generate" = Some 1 ∧
    count "build" = Some 2 ∧ count "source" = Some 1 ∧
    count "package" = Some 2 ∧ count "package_info" = Some 0.
Proof.
  split; [apply methods_plain|]. split.
  - intros World tool self w run.
    destruct (assigned_by_methods tool self w)
      as (Hlayout & Hinfo & Hgenerate & Hbuild & Hsource & Hpackage).
    split.
    { intros name m Hm.
      destruct (no_thread_no_repeat tool self w name m Hm) as [Hthreads Hdup].
      repeat split; [done..|].
      apply exec_plain_propagates. by eapply methods_plain. }
    split; [by split|]. split; [by split|].
    split; [split; [assumption|apply generate_follows]|].
    split; [split; [assumption|apply source_follows]|].
    split; [split; [assumption|apply build_follows]|].
    split; [assumption|apply package_follows].
  - intros answers self count. split; [|split].
    + apply (methods_ind (λ _ m, NoDup (trace answers m self)));
        [ rewrite trace_layout | rewrite trace_generate | rewrite trace_build
        | rewrite trace_source | rewrite trace_package
        | rewrite trace_package_info ];
        repeat (apply NoDup_cons_2;
                [ rewrite ?elem_of_cons, elem_of_nil; intros Hin;
                  repeat (destruct Hin as [Hin|Hin]; [discriminate Hin|]);
                  exact Hin |]);
        apply NoDup_nil_2.
    + apply methods_ind; reflexivity.
    + repeat split.
Qed.

(** ** The shared option *)

(** [build] with the shared option on and off, with helpers that read the
    option from the recipe object they are handed: Meson builds another
    library. *)
Example build_shared_and_static :
  let world b := Run.world (exec (Sim.tool Sim.works) FossilIoConan.build
                                 (with_shared b Sim.self0) Sim.world0) in
  ("/recipe/builddir/libfossil_io.so" ∈ Sim.files (world true)) ∧
  ("/recipe/builddir/libfossil_io.so" ∉ Sim.files (world false)) ∧
  ("/recipe/builddir/libfossil_io.a" ∈ Sim.files (world false)).
Proof.
  cbv zeta. rewrite !list_elem_of_In. vm_compute.
  repeat split; [tauto| |tauto].
  intros Hin. repeat (destruct Hin as [Hin|Hin]; [discriminate Hin|]).
  exact Hin.
Qed.


Section Shared.
Context {World1 World2 : Type}.
Variable tool1 : call → ConanFile.t → World1 → (exn + pyval) * World1.
Variable tool2 : call → ConanFile.t → World2 → (exn + pyval) * World2.

End Shared.

Section SharedOneWorld.
Context {World : Type}.
Variable tool : call → ConanFile.t → World → (exn + pyval) * World.

(** The helpers do not read [shared]. *)
Hypothesis tool_ignores_shared : ∀ c self w,
  tool c (with_shared true self) w = tool c (with_shared false self) w.


End SharedOneWorld.





(** ** Errors of the helpers *)

(** A body with a [try] around a failing call does not let the error
    through, so [propagates] is not a property of every body. *)
Example try_swallows_the_error :
  let body := Try (invoke (Meson_configure VNone);; mret tt) (λ _, Ret tt) (Ret tt) in
  let r := exec (Sim.tool Sim.configure_fails) body Sim.self0 Sim.world0 in
  Run.outcome_of r = Returned tt ∧ ¬ propagates r.
Proof.
  split; [reflexivity|]. unfold propagates. cbn. intros Hall.
  apply Forall_cons in Hall as [[x Hx] _]. discriminate Hx.
Qed.

(** C9: in every method an error raised by a helper goes to the caller
    unchanged and ends the method there: a run that returns saw no helper
    fail, and a run in which a helper fails raises that helper's error,
    the failing call being the last one made. *)
Theorem tool_errors_propagate name m :
  method_of name = Some m →
  ∀ (World : Type) (tool : call → ConanFile.t → World → (exn + pyval) * World) self w,
    let r := exec tool m self w in
    plain m ∧ propagates r ∧
    ∀ c e, (c, inl e) ∈ Run.log r →
           Run.outcome_of r = Raised e ∧ last (Run.log r) = Some (c, inl e).
Proof.
  intros Hm World tool self w r.
  assert (plain m) as Hplain by eauto using methods_plain.
  assert (propagates r) as Hprop by by apply exec_plain_propagates.
  repeat split; [done..| |]; eapply propagates_failed; eauto.
Qed.

(** The theorem at [build], in a world where configure fails. *)
Lemma tool_errors_propagate_witness :
  let r := exec (Sim.tool Sim.configure_fails) FossilIoConan.build
                Sim.self0 Sim.world0 in
  Run.outcome_of r = Raised (Exception "ConanException" "command failed") ∧
  Run.calls r = [Meson_init; Meson_configure (VObject 2)] ∧
  propagates r.
Proof.
  split; [reflexivity|]. split; [reflexivity|].
  exact (proj1 (proj2 (tool_errors_propagate "build" FossilIoConan.build eq_refl
                         Sim.World (Sim.tool Sim.configure_fails)
                         Sim.self0 Sim.world0))).
Defined.

(** ** The order of the calls *)

Ltac prefix_of_script :=
  first [ by (exists VNone; eexists; reflexivity)
        | by (eexists; eexists; reflexivity) ].

Ltac earlier_call :=
  let i := fresh "i" in
  let H := fresh "H" in
  intros i; intros; 
  repeat (destruct i as [|i]; simplify_eq/=);
  first [ by (exists 1; eexists; eexists; split; [lia|reflexivity])
        | by (exists 1; eexists; split; [lia|reflexivity]) ].

Section Order.
Context {World : Type}.
Variable tool : call → ConanFile.t → World → (exn + pyval) * World.
Variables (self : ConanFile.t) (w : World).

(** [build]: the helper object, then configure, then build. *)
Lemma build_order :
  let r := exec tool FossilIoConan.build self w in
  (∃ meson, Run.calls r `prefix_of`
              [Meson_init; Meson_configure meson; Meson_build meson]) ∧
  (∀ i meson, Run.calls r !! i = Some (Meson_build meson) →
     ∃ j ok, j < i ∧ Run.log r !! j = Some (Meson_configure meson, inr ok)).
Proof.
  run_cases tool; (split; [prefix_of_script|earlier_call]).
Qed.

(** [package]: the helper object, then install, then the copy. *)
Lemma package_order :
  let r := exec tool FossilIoConan.package self w in
  (∃ meson, Run.calls r `prefix_of`
              [Meson_init; Meson_install meson;
               copy "*.h" "code/logic/fossil/io"
                    (os_path_join (ConanFile.package_folder self)
                                  ["include"; "fossil"; "io"])]) ∧
  (∀ i pattern src dst, Run.calls r !! i = Some (copy pattern src dst) →
     ∃ j meson ok, j < i ∧ Run.log r !! j = Some (Meson_install meson, inr ok)).
Proof.
  run_cases tool; (split; [prefix_of_script|earlier_call]).
Qed.
End Order.

(** C10: the helper calls of a method are made in one fixed order.  A run
    of [build] follows the script: helper object, configure, build; a run
    of [package] the script: helper object, install, copy of the headers.
    Each call of the script is made as soon as the one before it has
    returned, and the run stops short of the end of the script only at a
    call that raises; so a build step comes after a configure step that
    returned, and the copy after an install that returned.  [source]
    makes its one clone call, and [package_info] makes no call and emits
    the libraries before the include directories. *)
Theorem calls_keep_their_order :
  ∀ (World : Type) (tool : call → ConanFile.t → World → (exn + pyval) * World) self w,
    let rb := exec tool FossilIoConan.build self w in
    let rp := exec tool FossilIoConan.package self w in
    (∃ meson, Run.calls rb `prefix_of`
                [Meson_init; Meson_configure meson; Meson_build meson]) ∧
    (∀ i meson, Run.calls rb !! i = Some (Meson_build meson) →
       ∃ j ok, j < i ∧ Run.log rb !! j = Some (Meson_configure meson, inr ok)) ∧
    (∃ meson, Run.calls rp `prefix_of`
                [Meson_init; Meson_install meson;
                 copy "*.h" "code/logic/fossil/io"
                      (os_path_join (ConanFile.package_folder self)
                                    ["include"; "fossil"; "io"])]) ∧
    (∀ i pattern src dst, Run.calls rp !! i = Some (copy pattern src dst) →
       ∃ j meson ok, j < i ∧ Run.log rp !! j = Some (Meson_install meson, inr ok)) ∧
    (∃ m, method_of "source" = Some m ∧
       Run.calls (exec tool m self w) =
       [self_run ("git clone --branch v" +:+ ConanFile.version self +:+ " "
                    +:+ ConanFile.url self)]) ∧
    Run.calls (exec tool FossilIoConan.package_info self w) = [] ∧
    (∃ meson, follows [Meson_init; Meson_configure meson; Meson_build meson] rb) ∧
    (∃ meson, follows [Meson_init; Meson_install meson;
                       copy "*.h" "code/logic/fossil/io"
                            (os_path_join (ConanFile.package_folder self)
                                          ["include"; "fossil"; "io"])] rp) ∧
    Run.assigned (exec tool FossilIoConan.package_info self w) =
      [cpp_info_libs ["fossil_io"]; cpp_info_includedirs ["include"]].
Proof.
  intros World tool self w rb rp.
  destruct (build_order tool self w) as [Hb1 Hb2].
  destruct (package_order tool self w) as [Hp1 Hp2].
  split; [assumption|]. split; [assumption|].
  split; [assumption|]. split; [assumption|].
  split.
  { exists FossilIoConan.source_l56. split; [reflexivity|].
    apply source_l56_calls. }
  split; [reflexivity|].
  split; [apply build_follows|].
  split; [apply package_follows|]. reflexivity.
Qed.

(** ** package *)

Lemma endswith_sep_app (s t : string) :
  t ≠ "" → endswith_sep (s +:+ t) = endswith_sep t.
Proof.
  intros Ht. induction s as [|c s IH]; [done|].
  change (String c s +:+ t) with (String c (s +:+ t)).
  cbn [endswith_sep]. rewrite IH.
  destruct (s +:+ t) eqn:Hst; [|done].
  destruct s; [|discriminate Hst]. by destruct t.
Qed.

(** The destination of the copy lies in the package folder, at
    [include/fossil/io]. *)
Lemma os_path_join_include (package_folder : string) :
  os_path_join package_folder ["include"; "fossil"; "io"] =
  as_dir package_folder +:+ "include/fossil/io".
Proof.
  unfold os_path_join, as_dir. cbn [foldl].
  pose proof string_app_assoc as Hassoc.
  set (first := join_step package_folder "include").
  assert (first = (if bool_decide (package_folder = "") || endswith_sep package_folder
                   then package_folder else package_folder +:+ "/") +:+ "include")
    as ->.
  { unfold first, join_step. cbn [String.prefix].
    destruct (bool_decide (package_folder = "") || endswith_sep package_folder);
      [done|]. by rewrite Hassoc. }
  set (root := if bool_decide (package_folder = "") || endswith_sep package_folder
               then package_folder else package_folder +:+ "/").
  assert (∀ path b : string,
            b ≠ "" → String.prefix "/" b = false →
            endswith_sep b = false → ∀ c : string,
            join_step (path +:+ b) c =
            if String.prefix "/" c then c else path +:+ (b +:+ "/" +:+ c)) as Hstep.
  { intros path b Hb Hpre Hend c. unfold join_step.
    destruct (String.prefix "/" c); [done|].
    rewrite endswith_sep_app, Hend by done.
    rewrite bool_decide_eq_false_2; [cbn [orb]; by rewrite Hassoc|].
    destruct path; [by destruct b|discriminate]. }
  rewrite (Hstep root "include") by done. cbn [String.prefix].
  rewrite (Hstep root "include/fossil") by done. reflexivity.
Qed.

(** C1: after a successful run of [package] every header file below
    [code/logic/fossil/io] should be in the package at
    [include/fossil/io]; the comment in [package] says the copy is there
    to ensure it.  The code does not do this.  [src] is a relative path,
    so [copy] looks for it below the working directory, and Conan calls
    [package] from the build folder, which [layout] names [builddir]; the
    headers lie below the source folder.  In the run below the sources
    hold [stream.h], [package] returns normally, Meson installs the
    library, and no header reaches the package. *)
Theorem package_misses_headers_from_build_folder :
  let laid_out :=
    Run.self_of (exec (Sim.tool Sim.works) FossilIoConan.layout
                      Sim.self0 Sim.world0) in
  let r := exec (Sim.tool Sim.works) FossilIoConan.package laid_out Sim.world0 in
  Sim.cwd Sim.world0 =
    os_path_join "/recipe" [Folders.build (ConanFile.folders laid_out)] ∧
  ("/recipe/code/logic/fossil/io/stream.h" ∈ Sim.files Sim.world0) ∧
  Sim.fnmatch "stream.h" "*.h" = true ∧
  Run.outcome_of r = Returned tt ∧
  Run.calls r =
    [Meson_init; Meson_install (VObject 2);
     copy "*.h" "code/logic/fossil/io" "/pkg/include/fossil/io"] ∧
  ("/pkg/include/fossil/io/stream.h" ∉ Sim.files (Run.world r)) ∧
  Sim.files (Run.world r) = "/pkg/lib/libfossil_io.a" :: Sim.files Sim.world0.
Proof.
  cbv zeta. rewrite !list_elem_of_In. vm_compute.
  repeat split; [tauto|].
  intros Hin. repeat (destruct Hin as [Hin|Hin]; [discriminate Hin|]).
  exact Hin.
Qed.

(** * Further properties of the recipe *)

(** ** generate *)

(** X2: [generate] first builds the toolchain object and then calls its
    [generate], in that order and only if building the object returned;
    it returns exactly when both calls returned. *)
Theorem generate_order :
  ∀ (World : Type) (tool : call → ConanFile.t → World → (exn + pyval) * World) self w,
    let r := exec tool FossilIoConan.generate self w in
    (∃ tc, Run.calls r `prefix_of`
             [MesonToolchain_init; MesonToolchain_generate tc]) ∧
    (∀ i tc, Run.calls r !! i = Some (MesonToolchain_generate tc) →
       ∃ j ok, j < i ∧ Run.log r !! j = Some (MesonToolchain_init, inr ok)) ∧
    (Run.outcome_of r = Returned tt ↔
       length (Run.log r) = 2 ∧ Forall succeeded (Run.log r)).
Proof.
  intros World tool self w. run_cases tool;
    (split; [prefix_of_script|split]);
    first
      [ by (intros i tc Hi; repeat (destruct i as [|i]; simplify_eq/=);
            exists 0; eexists; split; first [lia|reflexivity])
      | split;
        [ intros Hret;
          first [ discriminate Hret
                | split; [done|]; repeat constructor; eexists; reflexivity ]
        | intros [Hlen Hall];
          first [ discriminate Hlen | done
                | apply Forall_cons in Hall as [_ Hall];
                  apply Forall_cons in Hall as [[x Hx] _]; discriminate Hx ] ] ].
Qed.

(** ** Helper objects *)

(** X3: in [generate], [build] and [package] every helper method is called
    on the object that the constructor call, the first call of the run,
    returned: [tc.generate()] on the result of [MesonToolchain(self)],
    [meson.configure()], [meson.build()] and [meson.install()] on the
    result of [Meson(self)]. *)
Theorem methods_called_on_constructed_object :
  ∀ (World : Type) (tool : call → ConanFile.t → World → (exn + pyval) * World) self w,
    Forall (λ m, let r := exec tool m self w in
                 ∀ i c obj, Run.calls r !! i = Some c → receiver c = Some obj →
                   ∃ ctor, constructor_of c = Some ctor ∧
                           Run.log r !! 0 = Some (ctor, inr obj))
           [FossilIoConan.generate; FossilIoConan.build; FossilIoConan.package].
Proof.
  intros World tool self w.
  repeat first [apply List.Forall_cons | apply List.Forall_nil];
    run_cases tool; intros i c obj Hc Hrecv;
    repeat (destruct i as [|i]; simplify_eq/=); eauto.
Qed.

(** ** What the methods leave alone *)

(** X4: the four methods that call helpers ([generate], [build], [source],
    [package]) contain no assignment to an attribute of the recipe
    object: whatever the helpers do, also when one of them raises, a run
    makes no assignment. *)
Theorem calling_methods_assign_nothing :
  ∀ (World : Type) (tool : call → ConanFile.t → World → (exn + pyval) * World)
    self w,
    Forall (λ name, ∃ m, method_of name = Some m ∧
                         Run.assigned (exec tool m self w) = [])
           ["generate"; "build"; "source"; "package"].
Proof.
  intros World tool self w.
  repeat first [apply List.Forall_cons | apply List.Forall_nil];
    (eexists; split; [reflexivity|]); run_cases tool; reflexivity.
Qed.

(** X5: [package_info] sets [cpp_info.libs] and [cpp_info.includedirs]
    and nothing else: it calls no helper, leaves the world alone, and the
    folders, the options and every other attribute of the recipe object
    keep their values. *)
Theorem package_info_sets_nothing_else :
  ∀ (World : Type) (tool : call → ConanFile.t → World → (exn + pyval) * World) self w,
    let r := exec tool FossilIoConan.package_info self w in
    let self' := Run.self_of r in
    Run.log r = [] ∧ Run.world r = w ∧
    ConanFile.folders self' = ConanFile.folders self ∧
    ConanFile.options self' = ConanFile.options self ∧
    ConanFile.version self' = ConanFile.version self ∧
    ConanFile.url self' = ConanFile.url self ∧
    ConanFile.package_folder self' = ConanFile.package_folder self ∧
    ConanFile.other self' = ConanFile.other self.
Proof. intros World tool self w. cbn. repeat split. Qed.

(** X6: [layout] and [package_info] can be run again and in either order:
    running one of them twice leaves the recipe object as running it once
    does, and running both leaves the same object whichever comes first. *)
Theorem layout_package_info_idempotent_commute :
  ∀ (World : Type) (tool : call → ConanFile.t → World → (exn + pyval) * World) self w,
    let after (p : prog unit) := Run.self_of (exec tool p self w) in
    after (FossilIoConan.layout;; FossilIoConan.layout)
      = after FossilIoConan.layout ∧
    after (FossilIoConan.package_info;; FossilIoConan.package_info)
      = after FossilIoConan.package_info ∧
    after (FossilIoConan.layout;; FossilIoConan.package_info)
      = after (FossilIoConan.package_info;; FossilIoConan.layout).
Proof. intros World tool self w. cbn. repeat split. Qed.

(** ** Where [package] copies to *)

Lemma string_prefix_app (s t : string) : String.prefix s (s +:+ t) = true.
Proof.
  induction s as [|c s IH]; [by destruct t|].
  change (String c s +:+ t) with (String c (s +:+ t)).
  cbn [String.prefix]. by destruct (ascii_dec c c).
Qed.

Lemma include_dir_is_not_the_source_dir (dir : string) :
  "code/logic/fossil/io" ≠ dir +:+ "include/fossil/io".
Proof.
  intros Heq. pose proof (f_equal String.length Heq) as Hlen.
  rewrite string_length_app in Hlen.
  destruct dir as [|a [|b [|c [|x dir]]]]; cbn in Hlen; try lia.
  vm_compute in Heq. discriminate Heq.
Qed.

(** X7: whatever the package folder is, the copy that [package] asks for
    goes to a directory inside the package folder (its path starts with
    [package_folder]) and never to the directory it copies from. *)
Theorem package_copy_stays_in_package_folder :
  ∀ (World : Type) (tool : call → ConanFile.t → World → (exn + pyval) * World) self w,
    Forall (λ c, match c with
                 | copy pattern src dst =>
                     String.prefix (ConanFile.package_folder self) dst = true ∧
                     src ≠ dst
                 | _ => True
                 end)
           (Run.calls (exec tool FossilIoConan.package self w)).
Proof.
  intros World tool self w.
  assert (String.prefix (ConanFile.package_folder self)
            (os_path_join (ConanFile.package_folder self)
                          ["include"; "fossil"; "io"]) = true) as Hpre.
  { rewrite os_path_join_include. unfold as_dir.
    destruct (bool_decide _ || _); [|rewrite string_app_assoc];
      apply string_prefix_app. }
  assert ("code/logic/fossil/io" ≠
          os_path_join (ConanFile.package_folder self)
                       ["include"; "fossil"; "io"]) as Hne.
  { rewrite os_path_join_include. apply include_dir_is_not_the_source_dir. }
  run_cases tool; repeat constructor; assumption.
Qed.

(** ** The words of the clone command *)

Lemma words_go_no_space (s t : string) (cur : option string) :
  no_space s = true →
  String.words_go cur (s +:+ t) =
  String.words_go (match s with
                   | EmptyString => cur
                   | String _ _ => Some (String.rev_app s (default "" cur))
                   end) t.
Proof.
  revert cur. induction s as [|a s IH]; intros cur Hs; [done|].
  cbn [no_space] in Hs. apply andb_true_iff in Hs as [Ha Hs].
  apply negb_true_iff in Ha.
  change (String a s +:+ t) with (String a (s +:+ t)).
  cbn [String.words_go]. rewrite Ha, IH by done.
  destruct s; by destruct cur.
Qed.

Lemma rev_app_rev_app (s a b : string) :
  String.rev_app (String.rev_app s a) b = String.rev_app a (s +:+ b).
Proof.
  revert a b. induction s as [|c s IH]; intros a b; [done|].
  cbn [String.rev_app]. by rewrite IH.
Qed.

Lemma string_app_nil_r (s : string) : s +:+ "" = s.
Proof.
  induction s as [|c s IH]; [done|].
  change (String c s +:+ "") with (String c (s +:+ "")). by rewrite IH.
Qed.

(** A word followed by a blank is the first word of the line. *)
Lemma words_go_word (s t : string) :
  no_space s = true → s ≠ "" →
  String.words_go None (s +:+ " " +:+ t) = s :: String.words_go None t.
Proof.
  intros Hs Hne. rewrite words_go_no_space by done.
  destruct s as [|a s]; [done|].
  change (" " +:+ t) with (String " " t). cbn [String.words_go Ascii.is_space].
  cbn. unfold String.rev. rewrite rev_app_rev_app, string_app_nil_r. done.
Qed.

(** A word at the end of the line is its last word. *)
Lemma words_go_last_word (s : string) :
  no_space s = true → s ≠ "" → String.words_go None s = [s].
Proof.
  intros Hs Hne.
  rewrite <- (string_app_nil_r s) at 1. rewrite words_go_no_space by done.
  destruct s as [|a s]; [done|].
  cbn. unfold String.rev. rewrite rev_app_rev_app, string_app_nil_r. done.
Qed.

Lemma shell_literal_char_no_space a :
  shell_literal_char a = true → Ascii.is_space a = false.
Proof. by destruct a as [[] [] [] [] [] [] [] []]. Qed.

Lemma shell_literal_no_space s : shell_literal s = true → no_space s = true.
Proof.
  induction s as [|a s IH]; [done|]. cbn [shell_literal no_space].
  intros [Ha Hs]%andb_true_iff.
  by rewrite (shell_literal_char_no_space a Ha), IH.
Qed.

(** X8: for every version and url made only of characters the shell hands
    on as they are (letters, digits and [. _ - / : + @]), the url not
    empty, the command that [source] runs splits into exactly the words
    git, clone, --branch, "v" followed by the version, and the url. *)
Theorem source_words_for_literal_version_and_url
    {World : Type} (tool : call → ConanFile.t → World → (exn + pyval) * World)
    self w :
  shell_literal (ConanFile.version self) = true →
  shell_literal (ConanFile.url self) = true →
  ConanFile.url self ≠ "" →
  ∃ command,
    Run.calls (exec tool FossilIoConan.source_l56 self w) = [self_run command] ∧
    String.words command =
      ["git"; "clone"; "--branch"; "v" +:+ ConanFile.version self;
       ConanFile.url self].
Proof.
  intros Hversion%shell_literal_no_space Hurl%shell_literal_no_space Hne.
  eexists. split; [apply source_l56_calls|].
  unfold String.words.
  change ("git clone --branch v" +:+ ConanFile.version self +:+ " "
            +:+ ConanFile.url self)
    with ("git" +:+ " " +:+ "clone" +:+ " " +:+ "--branch" +:+ " "
            +:+ ("v" +:+ ConanFile.version self) +:+ " " +:+ ConanFile.url self).
  rewrite !words_go_word by done.
  by rewrite words_go_last_word.
Qed.

(** The theorem at the declared version and url. *)
Lemma source_words_for_literal_version_and_url_witness :
  ∃ command,
    Run.calls (exec (Sim.tool Sim.works) FossilIoConan.source_l56
                    Sim.self0 Sim.world0) = [self_run command] ∧
    String.words command =
      ["git"; "clone"; "--branch"; "v" +:+ "0.2.4";
       "https://github.com/fossillogic/fossil-io"].
Proof.
  exact (source_words_for_literal_version_and_url (Sim.tool Sim.works)
           Sim.self0 Sim.world0 eq_refl eq_refl ltac:(discriminate)).
Defined.

(** X9: the version is put into the command as it is, without quotes.
    When it is two runs of such characters with a blank between them,
    the command no longer has the shape of X8: the branch argument is
    only the part of the version before the blank, and the part after it
    is a word of its own, ahead of the url. *)
Theorem source_version_with_blank_splits
    {World : Type} (tool : call → ConanFile.t → World → (exn + pyval) * World)
    self w (before rest : string) :
  ConanFile.version self = before +:+ " " +:+ rest →
  shell_literal before = true → shell_literal rest = true → rest ≠ "" →
  shell_literal (ConanFile.url self) = true → ConanFile.url self ≠ "" →
  ∃ command args,
    Run.calls (exec tool FossilIoConan.source_l56 self w) = [self_run command] ∧
    String.words command = "git" :: "clone" :: args ∧
    args = ["--branch"; "v" +:+ before; rest; ConanFile.url self] ∧
    option_value "--branch" args = Some ("v" +:+ before).
Proof.
  intros Hversion Hbefore%shell_literal_no_space Hrest%shell_literal_no_space
    Hne Hurl%shell_literal_no_space Hne'.
  eexists; eexists.
  split; [apply source_l56_calls|]. rewrite Hversion.
  split; [|split; reflexivity].
  unfold String.words.
  change ("git clone --branch v" +:+ (before +:+ " " +:+ rest) +:+ " "
            +:+ ConanFile.url self)
    with ("git" +:+ " " +:+ "clone" +:+ " " +:+ "--branch" +:+ " "
            +:+ (("v" +:+ before) +:+ " " +:+ rest) +:+ " " +:+ ConanFile.url self).
  rewrite !words_go_word by done.
  rewrite (string_app_assoc ("v" +:+ before)), (string_app_assoc " ").
  rewrite !words_go_word by done.
  by rewrite words_go_last_word.
Qed.

(** The theorem at a version that carries an option of [git clone]. *)
Lemma source_version_with_blank_splits_witness :
  ∃ command args,
    Run.calls (exec (Sim.tool Sim.works) FossilIoConan.source_l56
                 (ConanFile.mk "0.2.4 --bare" FossilIoConan.url "/pkg"
                    (Options.mk false) (Folders.mk "" "") (CppInfo.mk [] []) ∅)
                 Sim.world0) = [self_run command] ∧
    String.words command = "git" :: "clone" :: args ∧
    args = ["--branch"; "v" +:+ "0.2.4"; "--bare"; FossilIoConan.url] ∧
    option_value "--branch" args = Some ("v" +:+ "0.2.4").
Proof.
  exact (source_version_with_blank_splits (Sim.tool Sim.works)
           (ConanFile.mk "0.2.4 --bare" FossilIoConan.url "/pkg"
              (Options.mk false) (Folders.mk "" "") (CppInfo.mk [] []) ∅)
           Sim.world0 "0.2.4" "--bare" eq_refl eq_refl eq_refl
           ltac:(discriminate) eq_refl ltac:(discriminate)).
Defined.

(** ** What the methods read *)

Section Footprint.
Context {World : Type}.
Variable tool : call → ConanFile.t → World → (exn + pyval) * World.

(** The helpers take nothing from the recipe object. *)
Hypothesis tool_ignores_self : ∀ c self1 self2 w,
  tool c self1 w = tool c self2 w.

Ltac run_cases_ignoring self1 self2 :=
  unfold_methods; cbn;
  repeat (rewrite ?(tool_ignores_self _ self2 self1);
          match goal with
          | |- context [tool ?c self1 ?w] =>
              destruct (tool c self1 w) as [[?e|?r] ?w] eqn:?; cbn
          end).

Lemma generate_reads_nothing self1 self2 w :
  same_run (exec tool FossilIoConan.generate self1 w)
           (exec tool FossilIoConan.generate self2 w).
Proof. run_cases_ignoring self1 self2; by repeat split. Qed.

Lemma build_reads_nothing self1 self2 w :
  same_run (exec tool FossilIoConan.build self1 w)
           (exec tool FossilIoConan.build self2 w).
Proof. run_cases_ignoring self1 self2; by repeat split. Qed.

Lemma source_reads_version_and_url self1 self2 w :
  ConanFile.version self1 = ConanFile.version self2 →
  ConanFile.url self1 = ConanFile.url self2 →
  same_run (exec tool FossilIoConan.source_l56 self1 w)
           (exec tool FossilIoConan.source_l56 self2 w).
Proof.
  intros Hversion Hurl. unfold_methods. cbn. rewrite Hversion, Hurl.
  run_cases_ignoring self1 self2; by repeat split.
Qed.

Lemma package_reads_package_folder self1 self2 w :
  ConanFile.package_folder self1 = ConanFile.package_folder self2 →
  same_run (exec tool FossilIoConan.package self1 w)
           (exec tool FossilIoConan.package self2 w).
Proof.
  intros Hfolder. unfold_methods. cbn. rewrite Hfolder.
  run_cases_ignoring self1 self2; by repeat split.
Qed.
End Footprint.

(** X10: with helpers that take nothing from the recipe object they are
    handed, what a run does outside the recipe object depends on the
    recipe object only through the attributes the body names.
    [generate] and [build] read none: from any two states they make the
    same calls, with the same answers, world and outcome.  [source] reads
    only [version] and [url], and [package] only [package_folder]. *)
Theorem methods_read_only_what_they_name
    {World : Type} (tool : call → ConanFile.t → World → (exn + pyval) * World) :
  (∀ c self1 self2 w, tool c self1 w = tool c self2 w) →
  ∀ w self1 self2,
    same_run (exec tool FossilIoConan.generate self1 w)
             (exec tool FossilIoConan.generate self2 w) ∧
    same_run (exec tool FossilIoConan.build self1 w)
             (exec tool FossilIoConan.build self2 w) ∧
    (ConanFile.version self1 = ConanFile.version self2 →
     ConanFile.url self1 = ConanFile.url self2 →
     same_run (exec tool FossilIoConan.source_l56 self1 w)
              (exec tool FossilIoConan.source_l56 self2 w)) ∧
    (ConanFile.package_folder self1 = ConanFile.package_folder self2 →
     same_run (exec tool FossilIoConan.package self1 w)
              (exec tool FossilIoConan.package self2 w)).
Proof.
  intros Hignores w self1 self2. split; [|split; [|split]].
  - by apply generate_reads_nothing.
  - by apply build_reads_nothing.
  - by apply source_reads_version_and_url.
  - by apply package_reads_package_folder.
Qed.

(** The theorem at two objects that differ in folders, options and
    [cpp_info] but not in the package folder, with helpers that answer
    [None] to every call. *)
Lemma methods_read_only_what_they_name_witness :
  same_run
    (exec (always (λ _, VNone)) FossilIoConan.package Sim.self0 tt)
    (exec (always (λ _, VNone)) FossilIoConan.package
          (instantiate "/pkg" (Options.mk true) (Folders.mk "." "builddir")
                       (CppInfo.mk ["fossil_io"] ["include"]) ∅)
          tt).
Proof.
  exact (proj2 (proj2 (proj2
           (methods_read_only_what_they_name (always (λ _, VNone))
              (λ c self1 self2 w, eq_refl) tt Sim.self0
              (instantiate "/pkg" (Options.mk true) (Folders.mk "." "builddir")
                           (CppInfo.mk ["fossil_io"] ["include"]) ∅))))
           eq_refl).
Defined.

(** ** When no helper fails *)

Section Success.
Context {World : Type}.
Variable tool : call → ConanFile.t → World → (exn + pyval) * World.
Hypothesis tool_returns : ∀ c self w, ∃ ok, (tool c self w).1 = inr ok.

Lemma method_returns name m :
  method_of name = Some m →
  ∀ self w,
    let r := exec tool m self w in
    Run.outcome_of r = Returned tt ∧ Forall succeeded (Run.log r) ∧
    length (Run.calls r) = length (trace (λ _, VNone) m self).
Proof.
  revert name m.
  apply (methods_ind (λ _ m, ∀ self w,
           let r := exec tool m self w in
           Run.outcome_of r = Returned tt ∧ Forall succeeded (Run.log r) ∧
           length (Run.calls r) = length (trace (λ _, VNone) m self)));
    intros self w; run_cases tool;
    try match goal with
        | H : tool ?c ?s ?w' = (inl _, _) |- _ =>
            destruct (tool_returns c s w') as [ok Hok]; rewrite H in Hok;
            discriminate Hok
        end;
    repeat split; repeat constructor; eexists; reflexivity.
Qed.
End Success.

(** X11: the recipe never fails by itself: with helpers that always
    return, every method returns normally after making all of its calls:
    none for [layout] and [package_info], one for [source], two for
    [generate], three for [build] and [package]. *)
Theorem methods_return_when_helpers_do
    {World : Type} (tool : call → ConanFile.t → World → (exn + pyval) * World) :
  (∀ c self w, ∃ ok, (tool c self w).1 = inr ok) →
  Forall (λ '(name, n), ∃ m, method_of name = Some m ∧
            ∀ self w,
              let r := exec tool m self w in
              Run.outcome_of r = Returned tt ∧ Forall succeeded (Run.log r) ∧
              length (Run.calls r) = n)
         [("layout", 0); ("generate", 2); ("build", 3); ("source", 1);
          ("package", 3); ("package_info", 0)].
Proof.
  intros Hreturns.
  repeat first [apply List.Forall_cons | apply List.Forall_nil];
    match goal with
    | |- ∃ m, method_of ?name = Some m ∧ _ =>
        eexists; split; [reflexivity|]; intros self w;
        by apply (method_returns tool Hreturns name)
    end.
Qed.

Lemma sim_works_returns c self (w : Sim.World) :
  ∃ ok, (Sim.tool Sim.works c self w).1 = inr ok.
Proof. destruct c; eexists; reflexivity. Qed.

(** The theorem in the small world with working helpers. *)
Lemma methods_return_when_helpers_do_witness :
  Forall (λ '(name, n), ∃ m, method_of name = Some m ∧
            ∀ self w,
              let r := exec (Sim.tool Sim.works) m self w in
              Run.outcome_of r = Returned tt ∧ Forall succeeded (Run.log r) ∧
              length (Run.calls r) = n)
         [("layout", 0); ("generate", 2); ("build", 3); ("source", 1);
          ("package", 3); ("package_info", 0)].
Proof.
  exact (methods_return_when_helpers_do (Sim.tool Sim.works) sim_works_returns).
Defined.
